(** * sam_jax/models/load_model.py: the model selector

    A shallow embedding of [load_model.py] (the factory [get_model] and its
    two builders [create_image_model] and [create_vit_image_model]) and the
    properties of the selector that the specification states.

    The module is glue over flax / jax.  The wrapped framework is not part
    of the file, so it enters the development as an interface, the class
    [Framework]: the array type with its truth value, [PRNGKey], [jnp.ones],
    the two initialisation routines and the printed form of a type.  Every
    property is proved for an arbitrary framework; [Symbolic.framework] is
    one instance on which the definitions run.  For what two runs have in
    common the routines are taken as relations ([Runtime]), and the program
    is read a second time over them ([get_model_runs]); on the graph of a
    framework its runs are the values of [get_model]. *)

From Stdlib Require Import String List ZArith.
Import ListNotations.
Local Open Scope string_scope.
Local Open Scope Z_scope.

Set Implicit Arguments.

(** ** Python values used by the file *)

(** A raised exception: its class and its message. *)
Inductive exn : Type :=
| Exception (class_name message : string).

Definition ValueError (message : string) : exn :=
  Exception "ValueError" message.

(** The outcome of an expression that may raise. *)
Inductive result (A : Type) : Type :=
| Ok (a : A)
| Err (e : exn).
Arguments Err {A} e.

(** [transformer = {'num_layers': .., 'mlp_dim': .., 'num_heads': ..}] *)
Record transformer_dict : Type := Transformer {
  num_layers : Z;
  mlp_dim : Z;
  num_heads : Z
}.

(** [patches = ml_collections.ConfigDict({'size': (h, w)})] *)
Record patches_config : Type := Patches {
  size : Z * Z
}.

(** The value bound to [module] in [get_model].  The three legacy classes are
    never instantiated: [Cls.partial] with keyword arguments binds them into a
    module description.  [pyramid_depth] is [None] when the keyword is left
    to the default of the class, which lives in [pyramidnet.py].
    [VisionTransformer(...)] is a constructed flax.linen instance. *)
Inductive module : Type :=
| WideResnet_partial (blocks_per_group channel_multiplier num_outputs : Z)
| WideResnetShakeShake_partial
    (blocks_per_group channel_multiplier num_outputs : Z)
| PyramidNetShakeDrop_partial (num_outputs : Z) (pyramid_depth : option Z)
| VisionTransformer (num_classes hidden_size : Z)
    (transformer : transformer_dict) (patches : patches_config).

(** [jnp.float32], the only dtype the file names. *)
Inductive dtype : Type := float32.

(** [(batch_size, image_size, image_size, num_channels)] *)
Abbreviation shape := (Z * Z * Z * Z)%type (only parsing).

(** ** The wrapped framework *)

Class Framework : Type := {
  (** [jnp.ndarray]: PRNG keys and input tensors. *)
  ndarray : Type;
  (** the pytree of initial parameters returned by [init_by_shape] *)
  params : Type;
  (** [flax.nn.Collection], the state bound by [flax.nn.stateful()] *)
  collection : Type;
  (** what [flax.linen.Module.init] returns *)
  variables : Type;
  (** [jax.random.PRNGKey(seed)] *)
  PRNGKey : Z -> ndarray;
  (** [jnp.ones(shape)]; it raises on a shape it cannot build, such as a
      negative dimension. *)
  jnp_ones : shape -> result ndarray;
  (** [bool(a)] of an array; it may raise. *)
  ndarray_bool : ndarray -> result bool;
  (** [with flax.nn.stateful() as init_state:
         with flax.nn.stochastic(rng):
           _, initial_params = module.init_by_shape(key, specs)]
      as a function of [module], [rng], [key] and [specs]: the initial
      parameters and the collection filled during the call, or the
      exception that leaves the two [with] blocks. *)
  init_by_shape :
    module -> ndarray -> ndarray -> list (shape * dtype) ->
    result (params * collection);
  (** [model.init(rng, x, train=train)] *)
  linen_init : module -> ndarray -> ndarray -> bool -> result variables;
  (** [type(c)] of a collection as an f-string field prints it *)
  collection_type : collection -> string;
  (** [type(v)] of the value returned by [model.init], printed likewise *)
  variables_type : variables -> string
}.

(** ** What [get_model] returns *)

(** First component: [flax.nn.Model(module, initial_params)] on the
    [create_image_model] path, the linen module itself on the
    [create_vit_image_model] path. *)
Inductive model_value {F : Framework} : Type :=
| flax_nn_Model (m : module) (initial_params : params)
| linen_Module (m : module).

(** Second component, [init_state]. *)
Inductive state_value {F : Framework} : Type :=
| Collection (c : collection)
| Variables (v : variables).

(** ** Effects: standard output and exceptions *)

(** The lines written to standard output so far, oldest first. *)
Definition world : Type := list string.

Definition M (A : Type) : Type := world -> result A * world.

Definition ret {A} (a : A) : M A := fun w => (Ok a, w).

Definition raise {A} (e : exn) : M A := fun w => (Err e, w).

Definition bind {A B} (c : M A) (k : A -> M B) : M B :=
  fun w =>
    match c w with
    | (Ok a, w') => k a w'
    | (Err e, w') => (Err e, w')
    end.

(** An expression that may raise but writes nothing. *)
Definition lift {A} (r : result A) : M A := fun w => (r, w).

(** [print(line)] *)
Definition print (line : string) : M unit := fun w => (Ok tt, (w ++ [line])%list).

Declare Scope py_scope.
Delimit Scope py_scope with py.
Notation "x <- c ;; k" := (bind c (fun x => k))
  (at level 61, c at next level, right associativity) : py_scope.
Notation "c ;; k" := (bind c (fun _ => k))
  (at level 61, right associativity) : py_scope.
Notation "' pat <- c ;; k" := (bind c (fun x => match x with pat => k end))
  (at level 61, pat pattern, c at next level, right associativity) : py_scope.
Notation "x == y" := (String.eqb x y) (at level 70, no associativity) : py_scope.
Local Open Scope py_scope.

(** [x in xs] for a list of strings. *)
Definition py_in (x : string) (xs : list string) : bool :=
  existsb (String.eqb x) xs.

Section LoadModel.

Context {F : Framework}.

(** [type(init_state)] formatted into the f-string of the two builders. *)
Definition type_of (init_state : state_value) : string :=
  match init_state with
  | Collection c => collection_type c
  | Variables v => variables_type v
  end.

(** [not prng_key] for [prng_key : Optional[jnp.ndarray]]: [None] is false,
    an array is asked for its truth value. *)
Definition py_not (prng_key : option ndarray) : result bool :=
  match prng_key with
  | None => Ok true
  | Some a =>
      match ndarray_bool a with
      | Ok b => Ok (negb b)
      | Err e => Err e
      end
  end.

(** ** The source *)

Definition _AVAILABLE_MODEL_NAMES : list string := [
  "WideResnet28x10";
  "WideResnet28x6_ShakeShake";
  "Pyramid_ShakeDrop";
  "VisionTransformer";
  "VisionTransformer_mini";
  "WideResnet_mini";
  "WideResnet_ShakeShake_mini";
  "Pyramid_ShakeDrop_mini"
].

Definition create_image_model
    (prng_key : ndarray) (batch_size image_size : Z) (module : module)
    (num_channels : Z) : M (model_value * state_value) :=
  let input_shape := (batch_size, image_size, image_size, num_channels) in
  '(initial_params, init_state) <-
    lift (init_by_shape module (PRNGKey 0) prng_key
            [(input_shape, float32)]) ;;
  let model := flax_nn_Model module initial_params in
  print ("type(init_state): " ++ type_of (Collection init_state)) ;;
  ret (model, Collection init_state).

Definition create_vit_image_model
    (prng_key : ndarray) (batch_size image_size : Z) (model : module)
    (num_channels : Z) : M (model_value * state_value) :=
  let input_shape := (batch_size, image_size, image_size, num_channels) in
  x <- lift (jnp_ones input_shape) ;;
  init_state <- lift (linen_init model (PRNGKey 0) x false) ;;
  print ("type(init_state): " ++ type_of (Variables init_state)) ;;
  ret (linen_Module model, Variables init_state).

(** Lines 118-158 of [get_model], the [if]/[elif] chain: the value bound
    to [module], or the [ValueError] of the final [else]. *)
Definition select_module (model_name : string) (num_classes : Z)
    : result module :=
  if model_name == "WideResnet28x10" then
    Ok (WideResnet_partial 4 10 num_classes)
  else if model_name == "WideResnet28x6_ShakeShake" then
    Ok (WideResnetShakeShake_partial 4 6 num_classes)
  else if model_name == "Pyramid_ShakeDrop" then
    Ok (PyramidNetShakeDrop_partial num_classes None)
  else if model_name == "VisionTransformer" then
    let transformer := Transformer 12 3072 12 in
    let patches := Patches (16, 16) in
    Ok (VisionTransformer num_classes 768 transformer patches)
  else if model_name == "VisionTransformer_mini" then
    let transformer := Transformer 2 3072 12 in
    let patches := Patches (16, 16) in
    Ok (VisionTransformer num_classes 768 transformer patches)
  else if model_name == "WideResnet_mini" then
    Ok (WideResnet_partial 2 1 num_classes)
  else if model_name == "WideResnet_ShakeShake_mini" then
    Ok (WideResnetShakeShake_partial 2 1 num_classes)
  else if model_name == "Pyramid_ShakeDrop_mini" then
    Ok (PyramidNetShakeDrop_partial num_classes (Some 11))
  else
    Err (ValueError "Unrecognized model name.").

(** Lines 159-160 of [get_model]:
    [if not prng_key: prng_key = random.PRNGKey(0)]; the value of
    [prng_key] after the statement, or the exception of the truth test. *)
Definition default_prng_key (prng_key : option ndarray) : result ndarray :=
  match py_not prng_key with
  | Err e => Err e
  | Ok absent =>
      match absent, prng_key with
      | false, Some key => Ok key
      | _, _ => Ok (PRNGKey 0)
      end
  end.

(** [num_channels] defaults to 3 and [prng_key] to [None] in the source. *)
Definition get_model
    (model_name : string) (batch_size image_size num_classes : Z)
    (num_channels : Z) (prng_key : option ndarray)
    : M (model_value * state_value) :=
  module <- lift (select_module model_name num_classes) ;;
  prng_key <- lift (default_prng_key prng_key) ;;
  if py_in model_name ["VisionTransformer"; "VisionTransformer_mini"] then
    create_vit_image_model prng_key batch_size image_size module num_channels
  else
    create_image_model prng_key batch_size image_size module num_channels.

(** ** Notions the properties are stated with *)

(** A module description bound by [partial], as opposed to a constructed
    linen instance. *)
Definition is_partial (m : module) : bool :=
  match m with
  | VisionTransformer _ _ _ _ => false
  | _ => true
  end.

(** The framework initialises [m] on inputs of shape [s] with the key in
    use: [init_by_shape] returns on that key for a [partial] description;
    [jnp.ones] builds the input and [model.init] returns on it for a linen
    instance. *)
Definition accepts (m : module) (key : ndarray) (s : shape) : Prop :=
  if is_partial m then
    exists r, init_by_shape m (PRNGKey 0) key [(s, float32)] = Ok r
  else
    exists x v,
      jnp_ones s = Ok x /\ linen_init m (PRNGKey 0) x false = Ok v.

(** The truth test of line 159 does not raise on [prng_key]. *)
Definition truth_defined (prng_key : option ndarray) : Prop :=
  exists b, py_not prng_key = Ok b.

(** The line a successful call prints for the state it returns. *)
Definition diagnostic (init_state : state_value) : string :=
  "type(init_state): " ++ type_of init_state.

End LoadModel.

(** ** A framework on which the definitions run

    Arrays are kept as the expression that built them, and each
    initialisation routine returns a record of the call it received, so a
    run of [get_model] shows which routine was called on which arguments. *)
Module Symbolic.

Inductive tensor : Type :=
| Words (ws : list Z)
| Ones (s : shape).

Definition ambiguous : exn :=
  ValueError
    "The truth value of an array with more than one element is ambiguous. Use a.any() or a.all()".

(** An empty array is false, an array of one element is that element, and
    any larger array has no truth value. *)
Definition tensor_bool (t : tensor) : result bool :=
  match t with
  | Words [] => Ok false
  | Words [x] => Ok (negb (x =? 0))
  | Words _ => Err ambiguous
  | Ones (b, h, w, c) =>
      let n := b * h * w * c in
      if n =? 0 then Ok false else if n =? 1 then Ok true else Err ambiguous
  end.

(** A PRNG key is an array of two words. *)
Definition is_key (t : tensor) : bool :=
  match t with
  | Words [_; _] => true
  | _ => false
  end.

Definition not_a_key : exn :=
  Exception "TypeError" "PRNG key must be an array of two words".

Definition nonnegative_shape (s : shape) : bool :=
  let '(b, h, w, c) := s in (0 <=? b) && (0 <=? h) && (0 <=? w) && (0 <=? c).

(** [jnp.ones] refuses a negative dimension. *)
Definition sym_jnp_ones (s : shape) : result tensor :=
  if nonnegative_shape s then Ok (Ones s)
  else Err (Exception "TypeError"
              "shape must have every element be nonnegative").

Record init_by_shape_call : Type := InitByShape {
  call_module : module;
  stochastic_rng : tensor;
  call_key : tensor;
  call_specs : list (shape * dtype)
}.

Record init_call : Type := Init {
  init_model : module;
  init_rng : tensor;
  init_x : tensor;
  init_train : bool
}.

Definition positive_shape (s : shape) : bool :=
  let '(b, h, w, c) := s in (0 <? b) && (0 <? h) && (0 <? w) && (0 <? c).

(** Both routines sample with PRNG keys only, and reject an input with an
    empty dimension. *)
Definition sym_init_by_shape (m : module) (rng key : tensor)
    (specs : list (shape * dtype))
    : result (init_by_shape_call * init_by_shape_call) :=
  if negb (is_key rng && is_key key) then Err not_a_key
  else if forallb (fun spec => positive_shape (fst spec)) specs then
    Ok (InitByShape m rng key specs, InitByShape m rng key specs)
  else Err (ValueError "empty input").

Definition sym_linen_init (m : module) (rng x : tensor) (train : bool)
    : result init_call :=
  if negb (is_key rng) then Err not_a_key
  else
    match x with
    | Ones s =>
        if positive_shape s then Ok (Init m rng x train)
        else Err (ValueError "empty input")
    | Words _ => Err (ValueError "not an image batch")
    end.

Definition framework : Framework := {|
  ndarray := tensor;
  params := init_by_shape_call;
  collection := init_by_shape_call;
  variables := init_call;
  PRNGKey := fun seed => Words [0; seed];
  jnp_ones := sym_jnp_ones;
  ndarray_bool := tensor_bool;
  init_by_shape := sym_init_by_shape;
  linen_init := sym_linen_init;
  collection_type := fun _ => "<class 'flax.nn.base.Collection'>";
  variables_type := fun _ => "<class 'flax.core.frozen_dict.FrozenDict'>"
|}.

End Symbolic.

(** ** Reading a returned model *)

Section Observations.

Context {F : Framework}.

(** The module a returned model was built from: the first argument of
    [flax.nn.Model(module, initial_params)], or the linen module itself. *)
Definition model_module (model : model_value) : module :=
  match model with
  | flax_nn_Model m _ => m
  | linen_Module m => m
  end.

(** The size of the output layer a module was given: the keyword
    [num_outputs] of the three legacy classes, [num_classes] of
    [VisionTransformer]. *)
Definition output_size (m : module) : Z :=
  match m with
  | WideResnet_partial _ _ n => n
  | WideResnetShakeShake_partial _ _ n => n
  | PyramidNetShakeDrop_partial n _ => n
  | VisionTransformer n _ _ _ => n
  end.

End Observations.

(** ** Runs on a runtime that need not be deterministic

    In [Framework] a routine is a function, so calling it twice on the same
    arguments gives the same value by construction.  To state what two runs
    of [get_model] have in common, the routines are taken here as relations:
    the outcomes a call may have.  The program is the same text, read in
    the monad of sets of outcomes. *)

(** The outcomes a computation may have from a world. *)
Definition N (A : Type) : Type := world -> result A * world -> Prop.

Definition n_ret {A} (a : A) : N A := fun w o => o = (Ok a, w).

Definition n_bind {A B} (c : N A) (k : A -> N B) : N B :=
  fun w o =>
    exists o1,
      c w o1 /\
      match o1 with
      | (Ok a, w1) => k a w1 o
      | (Err e, w1) => o = (Err e, w1)
      end.

(** A pure expression that may raise. *)
Definition n_lift {A} (r : result A) : N A := fun w o => o = (r, w).

(** A call of a routine with the set [outcomes] of possible outcomes; it
    writes nothing. *)
Definition n_call {A} (outcomes : result A -> Prop) : N A :=
  fun w o => exists r, outcomes r /\ o = (r, w).

Definition n_print (line : string) : N unit :=
  fun w o => o = (Ok tt, (w ++ [line])%list).

Notation "x <~ c ;; k" := (n_bind c (fun x => k))
  (at level 61, c at next level, right associativity) : py_scope.
Notation "c ~;; k" := (n_bind c (fun _ => k))
  (at level 61, right associativity) : py_scope.
Notation "' pat <~ c ;; k" := (n_bind c (fun x => match x with pat => k end))
  (at level 61, pat pattern, c at next level, right associativity) : py_scope.

(** At most one outcome. *)
Definition functional {A} (outcomes : A -> Prop) : Prop :=
  forall r1 r2, outcomes r1 -> outcomes r2 -> r1 = r2.

(** Two runs of [c], from any two worlds, have the same outcome. *)
Definition repeatable {A} (c : N A) : Prop :=
  forall w1 w2 o1 o2, c w1 o1 -> c w2 o2 -> fst o1 = fst o2.

(** [c] has exactly one run from each world, the one [m] computes. *)
Definition computes {A} (c : N A) (m : M A) : Prop :=
  forall w o, c w o <-> o = m w.

(** The routines of the framework as relations, over the values of [F]. *)
Record Runtime {F : Framework} : Type := {
  PRNGKey_runs : Z -> result ndarray -> Prop;
  jnp_ones_runs : shape -> result ndarray -> Prop;
  ndarray_bool_runs : ndarray -> result bool -> Prop;
  init_by_shape_runs :
    module -> ndarray -> ndarray -> list (shape * dtype) ->
    result (params * collection) -> Prop;
  linen_init_runs :
    module -> ndarray -> ndarray -> bool -> result variables -> Prop
}.

Section Runs.

Context {F : Framework} (R : Runtime).

(** Every routine has at most one outcome on given arguments: the keys are
    the only source of randomness. *)
Definition deterministic : Prop :=
  (forall seed, functional (PRNGKey_runs R seed)) /\
  (forall s, functional (jnp_ones_runs R s)) /\
  (forall a, functional (ndarray_bool_runs R a)) /\
  (forall m rng key specs, functional (init_by_shape_runs R m rng key specs)) /\
  (forall m rng x train, functional (linen_init_runs R m rng x train)).

Definition py_not_runs (prng_key : option ndarray) : N bool :=
  match prng_key with
  | None => n_ret true
  | Some a => b <~ n_call (ndarray_bool_runs R a) ;; n_ret (negb b)
  end.

Definition create_image_model_runs
    (prng_key : ndarray) (batch_size image_size : Z) (module : module)
    (num_channels : Z) : N (model_value * state_value) :=
  let input_shape := (batch_size, image_size, image_size, num_channels) in
  rng <~ n_call (PRNGKey_runs R 0) ;;
  '(initial_params, init_state) <~
    n_call (init_by_shape_runs R module rng prng_key
              [(input_shape, float32)]) ;;
  let model := flax_nn_Model module initial_params in
  n_print ("type(init_state): " ++ type_of (Collection init_state)) ~;;
  n_ret (model, Collection init_state).

Definition create_vit_image_model_runs
    (prng_key : ndarray) (batch_size image_size : Z) (model : module)
    (num_channels : Z) : N (model_value * state_value) :=
  let input_shape := (batch_size, image_size, image_size, num_channels) in
  x <~ n_call (jnp_ones_runs R input_shape) ;;
  rng <~ n_call (PRNGKey_runs R 0) ;;
  init_state <~ n_call (linen_init_runs R model rng x false) ;;
  n_print ("type(init_state): " ++ type_of (Variables init_state)) ~;;
  n_ret (linen_Module model, Variables init_state).

(** Lines 159-160: [PRNGKey(0)] is called only when the test succeeds. *)
Definition default_prng_key_runs (prng_key : option ndarray) : N ndarray :=
  absent <~ py_not_runs prng_key ;;
  match absent, prng_key with
  | false, Some key => n_ret key
  | _, _ => n_call (PRNGKey_runs R 0)
  end.

Definition get_model_runs
    (model_name : string) (batch_size image_size num_classes : Z)
    (num_channels : Z) (prng_key : option ndarray)
    : N (model_value * state_value) :=
  module <~ n_lift (select_module model_name num_classes) ;;
  prng_key <~ default_prng_key_runs prng_key ;;
  if py_in model_name ["VisionTransformer"; "VisionTransformer_mini"] then
    create_vit_image_model_runs prng_key batch_size image_size module
      num_channels
  else
    create_image_model_runs prng_key batch_size image_size module
      num_channels.

End Runs.

(** The runtime in which each routine does what the function of [F] does. *)
Definition graph (F : Framework) : Runtime := {|
  PRNGKey_runs := fun seed r => r = Ok (PRNGKey seed);
  jnp_ones_runs := fun s r => r = jnp_ones s;
  ndarray_bool_runs := fun a r => r = ndarray_bool a;
  init_by_shape_runs :=
    fun m rng key specs r => r = init_by_shape m rng key specs;
  linen_init_runs := fun m rng x train r => r = linen_init m rng x train
|}.

(** A runtime over the symbolic values whose [init_by_shape] samples the
    weights with a key of its own choice instead of the one it is given. *)
Definition self_seeding : @Runtime Symbolic.framework :=
  @Build_Runtime Symbolic.framework
    (fun seed r => r = Ok (Symbolic.Words [0; seed]))
    (fun s r => r = Symbolic.sym_jnp_ones s)
    (fun a r => r = Symbolic.tensor_bool a)
    (fun m rng key specs r =>
       exists seed,
         r = Symbolic.sym_init_by_shape m rng (Symbolic.Words [0; seed]) specs)
    (fun m rng x train r => r = Symbolic.sym_linen_init m rng x train).

(** ** Properties of the selector *)

Section Properties.

Context {F : Framework}.

Arguments create_image_model : simpl never.
Arguments create_vit_image_model : simpl never.

(** Splits [In name _AVAILABLE_MODEL_NAMES] into its eight names. *)
Ltac each_name H :=
  unfold _AVAILABLE_MODEL_NAMES in H; simpl in H;
  repeat (destruct H as [H | H]; [symmetry in H; subst |]);
  try contradiction.

(** *** The two builders, run on a world *)

Lemma create_image_model_run key b i module ch w :
  create_image_model key b i module ch w =
  match init_by_shape module (PRNGKey 0) key [((b, i, i, ch), float32)] with
  | Ok (p, coll) =>
      (Ok (flax_nn_Model module p, Collection coll),
       (w ++ [String.append "type(init_state): " (collection_type coll)])%list)
  | Err e => (Err e, w)
  end.
Proof.
  unfold create_image_model, bind, lift, print, ret.
  destruct (init_by_shape _ _ _ _) as [[p coll] | e]; reflexivity.
Qed.

Lemma create_vit_image_model_run key b i model ch w :
  create_vit_image_model key b i model ch w =
  match jnp_ones (b, i, i, ch) with
  | Err e => (Err e, w)
  | Ok x =>
      match linen_init model (PRNGKey 0) x false with
      | Ok v =>
          (Ok (linen_Module model, Variables v),
           (w ++ [String.append "type(init_state): " (variables_type v)])%list)
      | Err e => (Err e, w)
      end
  end.
Proof.
  unfold create_vit_image_model, bind, lift, print, ret.
  destruct (jnp_ones _) as [x | e]; [| reflexivity].
  destruct (linen_init _ _ _ _) as [v | e]; reflexivity.
Qed.

(** A builder that succeeds appends one line, the one naming the type of
    the state it returns; one that raises writes nothing. *)
Lemma create_image_model_output key b i module ch w r w' :
  create_image_model key b i module ch w = (r, w') ->
  match r with
  | Ok (_, s) => w' = (w ++ [String.append "type(init_state): " (type_of s)])%list
  | Err _ => w' = w
  end.
Proof.
  rewrite create_image_model_run.
  destruct (init_by_shape _ _ _ _) as [[p coll] | e]; intros E;
    inversion E; subst; reflexivity.
Qed.

Lemma create_vit_image_model_output key b i model ch w r w' :
  create_vit_image_model key b i model ch w = (r, w') ->
  match r with
  | Ok (_, s) => w' = (w ++ [String.append "type(init_state): " (type_of s)])%list
  | Err _ => w' = w
  end.
Proof.
  rewrite create_vit_image_model_run.
  destruct (jnp_ones _) as [x | e];
    [| intros E; inversion E; subst; reflexivity].
  destruct (linen_init _ _ _ _) as [v | e]; intros E;
    inversion E; subst; reflexivity.
Qed.

(** *** The name chain *)

Lemma select_module_supported name c :
  In name _AVAILABLE_MODEL_NAMES -> exists module, select_module name c = Ok module.
Proof.
  intros H. each_name H; eexists; reflexivity.
Qed.

Lemma select_module_unsupported name c :
  ~ In name _AVAILABLE_MODEL_NAMES ->
  select_module name c = Err (ValueError "Unrecognized model name.").
Proof.
  intros H. unfold select_module.
  repeat match goal with
  | |- context [String.eqb name ?s] =>
      destruct (String.eqb_spec name s) as [E | _];
      [exfalso; apply H; subst name; unfold _AVAILABLE_MODEL_NAMES; simpl; tauto |]
  end.
  reflexivity.
Qed.

(** C1.  A [model_name] outside [_AVAILABLE_MODEL_NAMES] makes [get_model]
    raise [ValueError('Unrecognized model name.')]: whatever the other
    arguments are, the call returns no model and no state, and it has
    printed nothing. *)
Theorem get_model_unrecognized_name :
  forall name b i c ch key w,
    ~ In name _AVAILABLE_MODEL_NAMES ->
    get_model name b i c ch key w =
    (Err (ValueError "Unrecognized model name."), w).
Proof.
  intros name b i c ch key w H.
  unfold get_model, bind, lift.
  rewrite (select_module_unsupported c H). reflexivity.
Qed.

Lemma default_prng_key_defined key :
  truth_defined key -> exists k, default_prng_key key = Ok k.
Proof.
  intros [t E]. unfold default_prng_key. rewrite E.
  destruct t, key; eexists; reflexivity.
Qed.

(** C2.  For each of the eight supported names, a call of [get_model] whose
    shape parameters the framework accepts for the module of that name with
    the key in use, and whose [prng_key] is absent or has a truth value,
    does not raise: it returns a pair of a model and a state. *)
Theorem get_model_supported_returns :
  forall name b i c ch key w,
    In name _AVAILABLE_MODEL_NAMES ->
    truth_defined key ->
    (forall module k,
        select_module name c = Ok module ->
        default_prng_key key = Ok k ->
        accepts module k (b, i, i, ch)) ->
    exists model state w',
      get_model name b i c ch key w = (Ok (model, state), w').
Proof.
  intros name b i c ch key w Hin Hkey Hshape.
  destruct (default_prng_key_defined Hkey) as [k Ek].
  unfold get_model, bind, lift. rewrite Ek.
  each_name Hin;
    (match goal with
     | |- context [select_module ?n c] =>
         specialize (Hshape _ k (eq_refl : select_module n c = Ok _) Ek)
     end);
    unfold accepts in Hshape; cbn in Hshape |- *.
  all: try (rewrite create_image_model_run;
            destruct Hshape as [[p coll] E]; rewrite E;
            do 3 eexists; reflexivity).
  all: rewrite create_vit_image_model_run;
       destruct Hshape as [x [v [Ex E]]]; rewrite Ex, E;
       do 3 eexists; reflexivity.
Qed.

(** C3.  [get_model] dispatches on the family of the name.  For
    ['VisionTransformer'] and ['VisionTransformer_mini'], and for no other
    supported name, [module] is a constructed [VisionTransformer] instance
    and the call is one forward pass [model.init] on the all-ones tensor of
    the input shape, whose result is the returned state.  For the six other
    names [module] is a description bound by [partial], initialised by
    [init_by_shape] on the input shape and wrapped in [flax.nn.Model], and
    the returned state is the collection threaded beside it. *)
Theorem get_model_dispatch :
  forall name c,
    In name _AVAILABLE_MODEL_NAMES ->
    exists module,
      select_module name c = Ok module /\
      (((name = "VisionTransformer" \/ name = "VisionTransformer_mini") /\
        is_partial module = false /\
        forall b i ch key w,
          get_model name b i c ch key w =
          match default_prng_key key with
          | Err e => (Err e, w)
          | Ok _ =>
              match jnp_ones (b, i, i, ch) with
              | Err e => (Err e, w)
              | Ok x =>
                  match linen_init module (PRNGKey 0) x false with
                  | Ok v =>
                      (Ok (linen_Module module, Variables v),
                       (w ++ [diagnostic (Variables v)])%list)
                  | Err e => (Err e, w)
                  end
              end
          end)
       \/
       ((name <> "VisionTransformer" /\ name <> "VisionTransformer_mini") /\
        is_partial module = true /\
        forall b i ch key w,
          get_model name b i c ch key w =
          match default_prng_key key with
          | Err e => (Err e, w)
          | Ok k =>
              match
                init_by_shape module (PRNGKey 0) k [((b, i, i, ch), float32)]
              with
              | Ok (p, coll) =>
                  (Ok (flax_nn_Model module p, Collection coll),
                   (w ++ [diagnostic (Collection coll)])%list)
              | Err e => (Err e, w)
              end
          end)).
Proof.
  intros name c Hin.
  each_name Hin; eexists; (split; [reflexivity |]).
  all: first
    [ left; split; [auto |]; split; [reflexivity |];
      intros b i ch key w; unfold get_model, bind, lift; cbn;
      destruct (default_prng_key key) as [k | e]; [| reflexivity];
      apply create_vit_image_model_run
    | right; split; [split; discriminate |]; split; [reflexivity |];
      intros b i ch key w; unfold get_model, bind, lift; cbn;
      destruct (default_prng_key key) as [k | e]; [| reflexivity];
      apply create_image_model_run ].
Qed.

(** *** Runs from different worlds *)

(** The outcome of a call is the same from every world, and the only change
    to the world is the diagnostic line of a successful call. *)
Lemma get_model_frame name b i c ch key :
  exists r,
    forall w,
      get_model name b i c ch key w =
      (r, match r with
          | Ok (_, s) => (w ++ [diagnostic s])%list
          | Err _ => w
          end).
Proof.
  unfold get_model, bind, lift.
  destruct (select_module name c) as [module | e];
    [| exists (Err e); reflexivity].
  destruct (default_prng_key key) as [k | e];
    [| exists (Err e); reflexivity].
  destruct (py_in name _).
  - destruct (jnp_ones (b, i, i, ch)) as [x | e] eqn:Ex.
    + destruct (linen_init module (PRNGKey 0) x false) as [v | e] eqn:E.
      * exists (Ok (linen_Module module, Variables v)). intros w.
        rewrite create_vit_image_model_run, Ex, E. reflexivity.
      * exists (Err e). intros w.
        rewrite create_vit_image_model_run, Ex, E. reflexivity.
    + exists (Err e). intros w.
      rewrite create_vit_image_model_run, Ex. reflexivity.
  - destruct (init_by_shape module (PRNGKey 0) k [((b, i, i, ch), float32)])
      as [[p coll] | e] eqn:E.
    + exists (Ok (flax_nn_Model module p, Collection coll)). intros w.
      rewrite create_image_model_run, E. reflexivity.
    + exists (Err e). intros w.
      rewrite create_image_model_run, E. reflexivity.
Qed.

(** C5.  Without [prng_key] the key that samples the weights is the fixed
    [PRNGKey(0)]: the call is the initialisation routine of the selected
    module run on that key, and nothing is drawn. *)
Theorem get_model_default_seed :
  forall name b i c ch w,
    default_prng_key None = Ok (PRNGKey 0) /\
    get_model name b i c ch None w =
    match select_module name c with
    | Err e => (Err e, w)
    | Ok module =>
        if py_in name ["VisionTransformer"; "VisionTransformer_mini"] then
          match jnp_ones (b, i, i, ch) with
          | Err e => (Err e, w)
          | Ok x =>
              match linen_init module (PRNGKey 0) x false with
              | Ok v =>
                  (Ok (linen_Module module, Variables v),
                   (w ++ [diagnostic (Variables v)])%list)
              | Err e => (Err e, w)
              end
          end
        else
          match
            init_by_shape module (PRNGKey 0) (PRNGKey 0)
              [((b, i, i, ch), float32)]
          with
          | Ok (p, coll) =>
              (Ok (flax_nn_Model module p, Collection coll),
               (w ++ [diagnostic (Collection coll)])%list)
          | Err e => (Err e, w)
          end
    end.
Proof.
  intros name b i c ch w. split; [reflexivity |].
  unfold get_model, bind, lift.
  destruct (select_module name c) as [module | e]; [| reflexivity].
  cbn [default_prng_key py_not].
  destruct (py_in name _).
  - apply create_vit_image_model_run.
  - apply create_image_model_run.
Qed.

(** *** Hyperparameters *)

(** C6.  The hyperparameters given to the module constructor are constants
    fixed by the name: each supported name runs its builder on the module
    shown here, in which only [num_outputs] / [num_classes] comes from the
    caller; [batch_size], [image_size] and [num_channels] reach the builder
    alone, and [prng_key] reaches it through the truth test. *)
Theorem get_model_hyperparameters :
  forall b i c ch key w,
    let legacy module :=
      (k <- lift (default_prng_key key) ;;
       create_image_model k b i module ch) w in
    let vit module :=
      (k <- lift (default_prng_key key) ;;
       create_vit_image_model k b i module ch) w in
    get_model "WideResnet28x10" b i c ch key w =
      legacy (WideResnet_partial 4 10 c) /\
    get_model "WideResnet28x6_ShakeShake" b i c ch key w =
      legacy (WideResnetShakeShake_partial 4 6 c) /\
    get_model "Pyramid_ShakeDrop" b i c ch key w =
      legacy (PyramidNetShakeDrop_partial c None) /\
    get_model "VisionTransformer" b i c ch key w =
      vit (VisionTransformer c 768 (Transformer 12 3072 12)
             (Patches (16, 16))) /\
    get_model "VisionTransformer_mini" b i c ch key w =
      vit (VisionTransformer c 768 (Transformer 2 3072 12)
             (Patches (16, 16))) /\
    get_model "WideResnet_mini" b i c ch key w =
      legacy (WideResnet_partial 2 1 c) /\
    get_model "WideResnet_ShakeShake_mini" b i c ch key w =
      legacy (WideResnetShakeShake_partial 2 1 c) /\
    get_model "Pyramid_ShakeDrop_mini" b i c ch key w =
      legacy (PyramidNetShakeDrop_partial c (Some 11)).
Proof.
  intros b i c ch key w legacy vit. subst legacy vit.
  repeat split; unfold get_model, bind, lift; cbn;
    destruct (default_prng_key key); reflexivity.
Qed.

(** C7.  ['WideResnet_mini'] builds [WideResnet] with [blocks_per_group=2],
    [channel_multiplier=1] and [num_outputs=num_classes]: when the framework
    initialises that description on the input shape, the call returns the
    model made of the description and of exactly those parameters. *)
Theorem get_model_WideResnet_mini :
  forall b i c ch key w k p coll,
    default_prng_key key = Ok k ->
    init_by_shape (WideResnet_partial 2 1 c) (PRNGKey 0) k
      [((b, i, i, ch), float32)] = Ok (p, coll) ->
    get_model "WideResnet_mini" b i c ch key w =
    (Ok (flax_nn_Model (WideResnet_partial 2 1 c) p, Collection coll),
     (w ++ [diagnostic (Collection coll)])%list).
Proof.
  intros b i c ch key w k p coll Ek Ei.
  unfold get_model, bind, lift. cbn. rewrite Ek.
  rewrite create_image_model_run, Ei. reflexivity.
Qed.

(** *** Effects *)

(** C8.  A successful call prints exactly one line, which reports the type
    of the state it returns, and does nothing else: from any other world
    the same call returns the same pair and appends the same line. *)
Theorem get_model_single_log :
  forall name b i c ch key w r w',
    get_model name b i c ch key w = (Ok r, w') ->
    w' = (w ++ [diagnostic (snd r)])%list /\
    forall w2,
      get_model name b i c ch key w2 =
      (Ok r, (w2 ++ [diagnostic (snd r)])%list).
Proof.
  intros name b i c ch key w r w' E.
  destruct (get_model_frame name b i c ch key) as [r0 H].
  rewrite H in E. inversion E; subst. destruct r as [model state]. simpl.
  split; [reflexivity |]. intros w2. apply H.
Qed.

(** *** The seed *)

(** C9.  The test of line 159 is by truth value, not by comparison with
    [None]: an explicitly supplied key whose truth value is false is
    replaced by [PRNGKey(0)], and the call is the call without [prng_key]. *)
Theorem get_model_falsy_key_discarded :
  forall name b i c ch key w,
    ndarray_bool key = Ok false ->
    default_prng_key (Some key) = Ok (PRNGKey 0) /\
    get_model name b i c ch (Some key) w = get_model name b i c ch None w.
Proof.
  intros name b i c ch key w E.
  assert (D : default_prng_key (Some key) = Ok (PRNGKey 0)).
  { unfold default_prng_key, py_not. rewrite E. reflexivity. }
  split; [exact D |].
  unfold get_model, bind, lift. rewrite D. reflexivity.
Qed.

Lemma create_vit_image_model_ignores_key key1 key2 b i model ch w :
  create_vit_image_model key1 b i model ch w =
  create_vit_image_model key2 b i model ch w.
Proof. reflexivity. Qed.

(** C10.  For ['VisionTransformer'] and ['VisionTransformer_mini'] the
    outcome does not depend on [prng_key]: [create_vit_image_model] never
    reads its key and initialises with [PRNGKey(0)], so two calls whose keys
    pass the truth test return the same model and the same state. *)
Theorem get_model_vit_ignores_key :
  forall name b i c ch key1 key2 w,
    name = "VisionTransformer" \/ name = "VisionTransformer_mini" ->
    truth_defined key1 ->
    truth_defined key2 ->
    get_model name b i c ch key1 w = get_model name b i c ch key2 w.
Proof.
  intros name b i c ch key1 key2 w Hname H1 H2.
  destruct (default_prng_key_defined H1) as [k1 E1].
  destruct (default_prng_key_defined H2) as [k2 E2].
  unfold get_model, bind, lift. rewrite E1, E2.
  destruct Hname; subst name; cbn;
    apply create_vit_image_model_ignores_key.
Qed.

End Properties.

(** ** Further properties of the selector *)

Section Further.

Context {F : Framework}.

(** *** The chain and the list of names *)

Lemma select_module_inv name c module :
  select_module name c = Ok module -> In name _AVAILABLE_MODEL_NAMES.
Proof.
  intros E.
  destruct (in_dec string_dec name _AVAILABLE_MODEL_NAMES) as [H | H];
    [exact H |].
  rewrite (select_module_unsupported c H) in E. discriminate E.
Qed.

(** Turns [E : select_module name c = Ok module] into the eight cases of
    the chain, with [name] and [module] replaced by what each branch has. *)
Ltac by_branch E :=
  let H := fresh "H" in
  pose proof (select_module_inv _ _ E) as H;
  unfold _AVAILABLE_MODEL_NAMES in H; simpl in H;
  repeat (destruct H as [H | H]; [symmetry in H; subst |]);
  try contradiction;
  cbn in E; injection E as E; try (symmetry in E; subst).

(** The test [model_name in ['VisionTransformer', 'VisionTransformer_mini']]
    of line 162 agrees with the branch the chain took. *)
Lemma py_in_family name c module :
  select_module name c = Ok module ->
  py_in name ["VisionTransformer"; "VisionTransformer_mini"] =
  negb (is_partial module).
Proof.
  intros E. by_branch E; reflexivity.
Qed.

Lemma select_module_output_size name c module :
  select_module name c = Ok module -> output_size module = c.
Proof.
  intros E. by_branch E; reflexivity.
Qed.

Lemma default_prng_key_raises key e :
  default_prng_key key = Err e ->
  exists a, key = Some a /\ ndarray_bool a = Err e.
Proof.
  unfold default_prng_key, py_not.
  destruct key as [a |]; [| discriminate].
  destruct (ndarray_bool a) as [[] | e0] eqn:Ea; try discriminate.
  intros E. injection E as E. subst. exists a. split; [reflexivity | exact Ea].
Qed.

(** [get_model] as one case analysis on the three things it calls. *)
Lemma get_model_run name b i c ch key w :
  get_model name b i c ch key w =
  match select_module name c with
  | Err e => (Err e, w)
  | Ok module =>
      match default_prng_key key with
      | Err e => (Err e, w)
      | Ok k =>
          if is_partial module then
            match
              init_by_shape module (PRNGKey 0) k [((b, i, i, ch), float32)]
            with
            | Ok (p, coll) =>
                (Ok (flax_nn_Model module p, Collection coll),
                 (w ++ [diagnostic (Collection coll)])%list)
            | Err e => (Err e, w)
            end
          else
            match jnp_ones (b, i, i, ch) with
            | Err e => (Err e, w)
            | Ok x =>
                match linen_init module (PRNGKey 0) x false with
                | Ok v =>
                    (Ok (linen_Module module, Variables v),
                     (w ++ [diagnostic (Variables v)])%list)
                | Err e => (Err e, w)
                end
            end
      end
  end.
Proof.
  unfold get_model, bind, lift.
  destruct (select_module name c) as [module | e] eqn:E; [| reflexivity].
  destruct (default_prng_key key) as [k | e]; [| reflexivity].
  rewrite (py_in_family _ _ E).
  destruct (is_partial module); cbn [negb].
  - apply create_image_model_run.
  - apply create_vit_image_model_run.
Qed.

Lemma get_model_success_module name b i c ch key w model state w' :
  get_model name b i c ch key w = (Ok (model, state), w') ->
  select_module name c = Ok (model_module model).
Proof.
  rewrite get_model_run.
  destruct (select_module name c) as [module | e]; [| discriminate].
  destruct (default_prng_key key) as [k | e]; [| discriminate].
  destruct (is_partial module).
  - destruct (init_by_shape _ _ _ _) as [[p coll] | e]; [| discriminate].
    intros E. injection E as E1 E2 E3. subst. reflexivity.
  - destruct (jnp_ones _) as [x | e]; [| discriminate].
    destruct (linen_init _ _ _ _) as [v | e]; [| discriminate].
    intros E. injection E as E1 E2 E3. subst. reflexivity.
Qed.

(** X1.  The chain of [get_model] and the list [_AVAILABLE_MODEL_NAMES]
    agree: the chain binds a module exactly for the names of the list. *)
Theorem select_module_iff_available :
  forall name c,
    (exists module, select_module name c = Ok module) <->
    In name _AVAILABLE_MODEL_NAMES.
Proof.
  intros name c. split.
  - intros [module E]. exact (select_module_inv _ _ E).
  - apply select_module_supported.
Qed.

(** X2.  No two names are aliases: a module is bound by one name only, and
    for one output size only. *)
Theorem select_module_injective :
  forall name1 c1 name2 c2 module,
    select_module name1 c1 = Ok module ->
    select_module name2 c2 = Ok module ->
    name1 = name2 /\ c1 = c2.
Proof.
  intros name1 c1 name2 c2 module E1 E2.
  pose proof (select_module_inv _ _ E2) as H2.
  by_branch E1;
    unfold _AVAILABLE_MODEL_NAMES in H2; simpl in H2;
    repeat (destruct H2 as [H2 | H2]; [symmetry in H2; subst |]);
    try contradiction;
    cbn in E2; split; congruence.
Qed.

(** X3.  A call that raises has printed nothing, whatever raised. *)
Theorem get_model_error_silent :
  forall name b i c ch key w e w',
    get_model name b i c ch key w = (Err e, w') -> w' = w.
Proof.
  intros name b i c ch key w e w' E.
  destruct (get_model_frame name b i c ch key) as [r H].
  rewrite H in E. injection E as E1 E2. subst. reflexivity.
Qed.

(** X4.  On a supported name [get_model] raises nothing of its own: an
    exception that leaves the call was raised by the truth test of the
    supplied key, by [jnp.ones] on the input shape (linen instances only),
    or by the initialisation routine of the selected module, and it is
    passed on unchanged. *)
Theorem get_model_error_provenance :
  forall name b i c ch key w e w',
    In name _AVAILABLE_MODEL_NAMES ->
    get_model name b i c ch key w = (Err e, w') ->
    (exists a, key = Some a /\ ndarray_bool a = Err e) \/
    (exists module k,
        select_module name c = Ok module /\
        default_prng_key key = Ok k /\
        if is_partial module then
          init_by_shape module (PRNGKey 0) k [((b, i, i, ch), float32)] =
          Err e
        else
          jnp_ones (b, i, i, ch) = Err e \/
          exists x,
            jnp_ones (b, i, i, ch) = Ok x /\
            linen_init module (PRNGKey 0) x false = Err e).
Proof.
  intros name b i c ch key w e w' Hin.
  destruct (select_module_supported c Hin) as [module Em].
  rewrite get_model_run, Em.
  destruct (default_prng_key key) as [k | e0] eqn:Ek.
  - intros E. right. exists module, k.
    split; [reflexivity |]. split; [reflexivity |].
    destruct (is_partial module).
    + destruct (init_by_shape _ _ _ _) as [[p coll] | e1];
        [discriminate E |].
      injection E as E1 E2. subst. reflexivity.
    + destruct (jnp_ones _) as [x | e1].
      * right. exists x. split; [reflexivity |].
        destruct (linen_init _ _ _ _) as [v | e2]; [discriminate E |].
        injection E as E1 E2. subst. reflexivity.
      * left. injection E as E1 E2. subst. reflexivity.
  - intros E. injection E as E1 E2. subst. left.
    exact (default_prng_key_raises _ Ek).
Qed.

(** X5.  A supplied key whose truth test raises makes the call raise that
    exception on every supported name, before anything is initialised or
    printed. *)
Theorem get_model_truth_test_raises :
  forall name b i c ch a e w,
    In name _AVAILABLE_MODEL_NAMES ->
    ndarray_bool a = Err e ->
    get_model name b i c ch (Some a) w = (Err e, w).
Proof.
  intros name b i c ch a e w Hin Ea.
  destruct (select_module_supported c Hin) as [module Em].
  rewrite get_model_run, Em.
  unfold default_prng_key, py_not. rewrite Ea. reflexivity.
Qed.

(** X6.  On the six legacy names a supplied key whose truth value is true
    is the key [init_by_shape] samples the weights with; the stochastic
    scope stays on [PRNGKey(0)]. *)
Theorem get_model_legacy_uses_key :
  forall name b i c ch a w module,
    select_module name c = Ok module ->
    is_partial module = true ->
    ndarray_bool a = Ok true ->
    get_model name b i c ch (Some a) w =
    match init_by_shape module (PRNGKey 0) a [((b, i, i, ch), float32)] with
    | Ok (p, coll) =>
        (Ok (flax_nn_Model module p, Collection coll),
         (w ++ [diagnostic (Collection coll)])%list)
    | Err e => (Err e, w)
    end.
Proof.
  intros name b i c ch a w module Em Hp Ea.
  rewrite get_model_run, Em, Hp.
  unfold default_prng_key, py_not. rewrite Ea. reflexivity.
Qed.

(** X7.  The two components of a returned pair belong to one family, the
    one of the module the chain bound for the name: a [flax.nn.Model] of a
    [partial] description comes with a collection, a [VisionTransformer]
    instance with the value of [model.init]; they are never mixed. *)
Theorem get_model_result_family :
  forall name b i c ch key w model state w',
    get_model name b i c ch key w = (Ok (model, state), w') ->
    select_module name c = Ok (model_module model) /\
    match model, state with
    | flax_nn_Model m _, Collection _ => is_partial m = true
    | linen_Module m, Variables _ => is_partial m = false
    | _, _ => False
    end.
Proof.
  intros name b i c ch key w model state w' E.
  split; [exact (get_model_success_module _ _ _ _ _ _ _ E) |].
  rewrite get_model_run in E.
  destruct (select_module name c) as [module | e]; [| discriminate].
  destruct (default_prng_key key) as [k | e]; [| discriminate].
  destruct (is_partial module) eqn:Hp.
  - destruct (init_by_shape _ _ _ _) as [[p coll] | e]; [| discriminate].
    injection E as E1 E2 E3. subst. exact Hp.
  - destruct (jnp_ones _) as [x | e]; [| discriminate].
    destruct (linen_init _ _ _ _) as [v | e]; [| discriminate].
    injection E as E1 E2 E3. subst. exact Hp.
Qed.

(** X8.  A returned model has the output size that was asked for: the
    module it was built from was given [num_classes]. *)
Theorem get_model_output_size :
  forall name b i c ch key w model state w',
    get_model name b i c ch key w = (Ok (model, state), w') ->
    output_size (model_module model) = c.
Proof.
  intros name b i c ch key w model state w' E.
  apply (select_module_output_size name).
  exact (get_model_success_module _ _ _ _ _ _ _ E).
Qed.

End Further.

(** ** Two runs *)

Section TwoRuns.

Context {F : Framework}.

Lemma repeatable_ret A (a : A) : repeatable (n_ret a).
Proof. intros w1 w2 o1 o2 H1 H2. rewrite H1, H2. reflexivity. Qed.

Lemma repeatable_lift A (r : result A) : repeatable (n_lift r).
Proof. intros w1 w2 o1 o2 H1 H2. rewrite H1, H2. reflexivity. Qed.

Lemma repeatable_print line : repeatable (n_print line).
Proof. intros w1 w2 o1 o2 H1 H2. rewrite H1, H2. reflexivity. Qed.

Lemma repeatable_call A (outcomes : result A -> Prop) :
  functional outcomes -> repeatable (n_call outcomes).
Proof.
  intros Hf w1 w2 o1 o2 [r1 [H1 E1]] [r2 [H2 E2]]. subst.
  simpl. exact (Hf _ _ H1 H2).
Qed.

Lemma repeatable_bind A B (c : N A) (k : A -> N B) :
  repeatable c -> (forall a, repeatable (k a)) -> repeatable (n_bind c k).
Proof.
  intros Hc Hk w1 w2 o1 o2 [p1 [C1 K1]] [p2 [C2 K2]].
  pose proof (Hc _ _ _ _ C1 C2) as E.
  destruct p1 as [[a1 | e1] v1], p2 as [[a2 | e2] v2]; simpl in E;
    try discriminate E.
  - injection E as E. subst a2. exact (Hk a1 _ _ _ _ K1 K2).
  - injection E as E. subst. reflexivity.
Qed.

Section OnRuntime.

Variable R : Runtime.
Hypothesis Hdet : deterministic R.

Lemma default_prng_key_runs_repeatable key :
  repeatable (default_prng_key_runs R key).
Proof.
  destruct Hdet as [Hkey [_ [Hbool _]]].
  unfold default_prng_key_runs. apply repeatable_bind.
  - destruct key as [a |]; simpl.
    + apply repeatable_bind.
      * apply repeatable_call, Hbool.
      * intros b. apply repeatable_ret.
    + apply repeatable_ret.
  - intros absent. destruct absent, key;
      first [apply repeatable_ret | apply repeatable_call, Hkey].
Qed.

Lemma create_image_model_runs_repeatable key b i m ch :
  repeatable (create_image_model_runs R key b i m ch).
Proof.
  destruct Hdet as [Hkey [_ [_ [Hinit _]]]].
  unfold create_image_model_runs. apply repeatable_bind.
  - apply repeatable_call, Hkey.
  - intros rng. apply repeatable_bind.
    + apply repeatable_call, Hinit.
    + intros [p st]. apply repeatable_bind.
      * apply repeatable_print.
      * intros _. apply repeatable_ret.
Qed.

Lemma create_vit_image_model_runs_repeatable key b i m ch :
  repeatable (create_vit_image_model_runs R key b i m ch).
Proof.
  destruct Hdet as [Hkey [Hones [_ [_ Hinit]]]].
  unfold create_vit_image_model_runs. apply repeatable_bind.
  - apply repeatable_call, Hones.
  - intros x. apply repeatable_bind.
    + apply repeatable_call, Hkey.
    + intros rng. apply repeatable_bind.
      * apply repeatable_call, Hinit.
      * intros v. apply repeatable_bind.
        -- apply repeatable_print.
        -- intros _. apply repeatable_ret.
Qed.

Lemma get_model_runs_repeatable name b i c ch key :
  repeatable (get_model_runs R name b i c ch key).
Proof.
  unfold get_model_runs. apply repeatable_bind.
  - apply repeatable_lift.
  - intros m. apply repeatable_bind.
    + apply default_prng_key_runs_repeatable.
    + intros k. destruct (py_in name _).
      * apply create_vit_image_model_runs_repeatable.
      * apply create_image_model_runs_repeatable.
Qed.

End OnRuntime.

(** *** The runs on the graph of [F] are the values of [get_model] *)

Lemma computes_ret A (a : A) : computes (n_ret a) (ret a).
Proof. intros w o. reflexivity. Qed.

Lemma computes_lift A (r : result A) : computes (n_lift r) (lift r).
Proof. intros w o. reflexivity. Qed.

Lemma computes_print line : computes (n_print line) (print line).
Proof. intros w o. reflexivity. Qed.

Lemma computes_call A (x : result A) :
  computes (n_call (fun r => r = x)) (lift x).
Proof.
  intros w o. unfold n_call, lift. split.
  - intros [r [E1 E2]]. subst. reflexivity.
  - intros E. exists x. split; [reflexivity | exact E].
Qed.

Lemma computes_bind A B (c : N A) (k : A -> N B) (m : M A) (f : A -> M B) :
  computes c m -> (forall a, computes (k a) (f a)) ->
  computes (n_bind c k) (bind m f).
Proof.
  intros Hc Hk w o. unfold n_bind, bind. split.
  - intros [o1 [C K]]. apply Hc in C. subst o1.
    destruct (m w) as [[a | e] w1]; [apply Hk; exact K | exact K].
  - intros E. exists (m w). split; [apply Hc; reflexivity |].
    destruct (m w) as [[a | e] w1]; [apply Hk; exact E | exact E].
Qed.

Lemma computes_ext A (c : N A) (m m' : M A) :
  computes c m -> (forall w, m w = m' w) -> computes c m'.
Proof. intros H E w o. rewrite <- E. apply H. Qed.

Lemma default_prng_key_runs_computes key :
  computes (default_prng_key_runs (graph F) key)
           (lift (default_prng_key key)).
Proof.
  apply computes_ext with
    (m := absent <- (match key with
                     | None => ret true
                     | Some a => t <- lift (ndarray_bool a) ;; ret (negb t)
                     end) ;;
          match absent, key with
          | false, Some k => ret k
          | _, _ => lift (Ok (PRNGKey 0))
          end).
  - unfold default_prng_key_runs. apply computes_bind.
    + destruct key as [a |]; simpl.
      * apply computes_bind.
        -- exact (computes_call (ndarray_bool a)).
        -- intros t. apply computes_ret.
      * apply computes_ret.
    + intros absent. destruct absent, key;
        first [apply computes_ret
              | exact (computes_call (Ok (PRNGKey 0)))].
  - intros w. unfold bind, lift, ret, default_prng_key, py_not.
    destruct key as [a |]; [| reflexivity].
    destruct (ndarray_bool a) as [[] | e]; reflexivity.
Qed.

Lemma create_image_model_runs_computes key b i m ch :
  computes (create_image_model_runs (graph F) key b i m ch)
           (create_image_model key b i m ch).
Proof.
  apply computes_ext with
    (m := rng <- lift (Ok (PRNGKey 0)) ;;
          ps <- lift (init_by_shape m rng key [((b, i, i, ch), float32)]) ;;
          print ("type(init_state): " ++ type_of (Collection (snd ps))) ;;
          ret (flax_nn_Model m (fst ps), Collection (snd ps))).
  - unfold create_image_model_runs. apply computes_bind.
    + exact (computes_call (Ok (PRNGKey 0))).
    + intros rng. apply computes_bind.
      * exact (computes_call
                 (init_by_shape m rng key [((b, i, i, ch), float32)])).
      * intros [p st]. apply computes_bind.
        -- apply computes_print.
        -- intros _. apply computes_ret.
  - intros w. unfold create_image_model, bind, lift, print, ret.
    destruct (init_by_shape _ _ _ _) as [[p st] | e]; reflexivity.
Qed.

Lemma create_vit_image_model_runs_computes key b i m ch :
  computes (create_vit_image_model_runs (graph F) key b i m ch)
           (create_vit_image_model key b i m ch).
Proof.
  apply computes_ext with
    (m := x <- lift (jnp_ones (b, i, i, ch)) ;;
          rng <- lift (Ok (PRNGKey 0)) ;;
          v <- lift (linen_init m rng x false) ;;
          print ("type(init_state): " ++ type_of (Variables v)) ;;
          ret (linen_Module m, Variables v)).
  - unfold create_vit_image_model_runs. apply computes_bind.
    + exact (computes_call (jnp_ones (b, i, i, ch))).
    + intros x. apply computes_bind.
      * exact (computes_call (Ok (PRNGKey 0))).
      * intros rng. apply computes_bind.
        -- exact (computes_call (linen_init m rng x false)).
        -- intros v. apply computes_bind.
           ++ apply computes_print.
           ++ intros _. apply computes_ret.
  - intros w. unfold create_vit_image_model, bind, lift, print, ret.
    destruct (jnp_ones _) as [x | e]; reflexivity.
Qed.

(** On the graph of [F] the program has exactly one run from each world,
    and its outcome is the value of [get_model]. *)
Lemma get_model_runs_computes name b i c ch key :
  computes (get_model_runs (graph F) name b i c ch key)
           (get_model name b i c ch key).
Proof.
  unfold get_model_runs, get_model. apply computes_bind.
  - apply computes_lift.
  - intros m. apply computes_bind.
    + apply default_prng_key_runs_computes.
    + intros k. destruct (py_in name _).
      * apply create_vit_image_model_runs_computes.
      * apply create_image_model_runs_computes.
Qed.

Lemma graph_deterministic : deterministic (graph F).
Proof.
  repeat split; intros; intros r1 r2 H1 H2; simpl in *; congruence.
Qed.


End TwoRuns.

(** *** The properties at concrete calls *)

#[local] Existing Instance Symbolic.framework.

Lemma get_model_unrecognized_name_witness :
  ~ In "ResNet50" (@_AVAILABLE_MODEL_NAMES) /\
  @get_model Symbolic.framework "ResNet50" 128 32 10 3 None [] =
  (Err (ValueError "Unrecognized model name."), []).
Proof.
  assert (H : ~ In "ResNet50" _AVAILABLE_MODEL_NAMES).
  { unfold _AVAILABLE_MODEL_NAMES. simpl. intros H.
    repeat (destruct H as [H | H]; [discriminate H |]). exact H. }
  split; [exact H |].
  exact (@get_model_unrecognized_name Symbolic.framework
           "ResNet50" 128 32 10 3 None [] H).
Defined.

Lemma get_model_supported_returns_witness :
  exists model state w',
    @get_model Symbolic.framework "WideResnet28x10" 128 32 10 3 None [] =
    (Ok (model, state), w').
Proof.
  apply (@get_model_supported_returns Symbolic.framework
           "WideResnet28x10" 128 32 10 3 None []).
  - unfold _AVAILABLE_MODEL_NAMES. simpl. tauto.
  - exists true. reflexivity.
  - intros module k E Ek. inversion E; subst. inversion Ek; subst.
    unfold accepts. simpl. eexists. reflexivity.
Defined.

Lemma get_model_dispatch_witness :
  In "VisionTransformer_mini" _AVAILABLE_MODEL_NAMES /\
  exists module,
    select_module "VisionTransformer_mini" 10 = Ok module /\
    is_partial module = false.
Proof.
  assert (H : In "VisionTransformer_mini" _AVAILABLE_MODEL_NAMES).
  { unfold _AVAILABLE_MODEL_NAMES. simpl. tauto. }
  split; [exact H |].
  destruct (@get_model_dispatch Symbolic.framework
              "VisionTransformer_mini" 10 H)
    as [module [E [[_ [P _]] | [[_ N] _]]]].
  - exists module. split; assumption.
  - exfalso. apply N. reflexivity.
Defined.

Lemma get_model_WideResnet_mini_witness :
  let module := WideResnet_partial 2 1 10 in
  let call :=
    Symbolic.InitByShape module (Symbolic.Words [0; 0])
      (Symbolic.Words [0; 0]) [((2, 32, 32, 3), float32)] in
  @get_model Symbolic.framework "WideResnet_mini" 2 32 10 3 None [] =
  (Ok (flax_nn_Model module call, Collection call),
   ["type(init_state): <class 'flax.nn.base.Collection'>"]).
Proof.
  intros module call.
  apply (@get_model_WideResnet_mini Symbolic.framework
           2 32 10 3 None [] (Symbolic.Words [0; 0]) call call);
    reflexivity.
Defined.

Lemma get_model_single_log_witness :
  exists r,
    @get_model Symbolic.framework "VisionTransformer" 128 224 1000 3 None
      ["epoch 0"] =
    (Ok r, ["epoch 0";
            "type(init_state): <class 'flax.core.frozen_dict.FrozenDict'>"]).
Proof.
  eexists.
  match goal with
  | |- _ = (Ok ?r, _) =>
      assert (E : @get_model Symbolic.framework "VisionTransformer"
                    128 224 1000 3 None ["epoch 0"] =
                  (Ok r, ["epoch 0";
            "type(init_state): <class 'flax.core.frozen_dict.FrozenDict'>"]))
        by reflexivity
  end.
  destruct (@get_model_single_log Symbolic.framework _ _ _ _ _ _ _ _ _ E)
    as [_ H].
  exact (H ["epoch 0"]).
Defined.

Lemma get_model_falsy_key_discarded_witness :
  let key := Symbolic.Words [0] in
  key <> @PRNGKey Symbolic.framework 0 /\
  @ndarray_bool Symbolic.framework key = Ok false /\
  @get_model Symbolic.framework "WideResnet_mini" 2 32 10 3 (Some key) [] =
  @get_model Symbolic.framework "WideResnet_mini" 2 32 10 3 None [].
Proof.
  intros key. split; [discriminate |]. split; [reflexivity |].
  apply (@get_model_falsy_key_discarded Symbolic.framework).
  reflexivity.
Defined.

Lemma get_model_vit_ignores_key_witness :
  @get_model Symbolic.framework "VisionTransformer" 2 32 10 3
    (Some (Symbolic.Words [1])) [] =
  @get_model Symbolic.framework "VisionTransformer" 2 32 10 3
    (Some (Symbolic.Words [2])) [].
Proof.
  apply (@get_model_vit_ignores_key Symbolic.framework).
  - left. reflexivity.
  - exists false. reflexivity.
  - exists false. reflexivity.
Defined.

Lemma select_module_injective_witness :
  "WideResnet_mini" = "WideResnet_mini" /\ 10 = 10.
Proof.
  apply (@select_module_injective
           "WideResnet_mini" 10 "WideResnet_mini" 10
           (WideResnet_partial 2 1 10));
    reflexivity.
Defined.

Lemma get_model_error_silent_witness :
  @get_model Symbolic.framework "WideResnet28x10" 0 32 10 3 None ["epoch 0"] =
  (Err (ValueError "empty input"), ["epoch 0"]) /\
  ["epoch 0"] = ["epoch 0"].
Proof.
  assert (E : @get_model Symbolic.framework "WideResnet28x10" 0 32 10 3 None
                ["epoch 0"] =
              (Err (ValueError "empty input"), ["epoch 0"]))
    by reflexivity.
  split; [exact E |].
  exact (@get_model_error_silent Symbolic.framework _ _ _ _ _ _ _ _ _ E).
Defined.

Lemma get_model_error_provenance_witness :
  @jnp_ones Symbolic.framework (-1, 32, 32, 3) =
  Err (Exception "TypeError" "shape must have every element be nonnegative").
Proof.
  assert (Hin : In "VisionTransformer_mini" _AVAILABLE_MODEL_NAMES).
  { unfold _AVAILABLE_MODEL_NAMES. simpl. tauto. }
  assert (E : @get_model Symbolic.framework "VisionTransformer_mini"
                (-1) 32 10 3 None [] =
              (Err (Exception "TypeError"
                      "shape must have every element be nonnegative"), []))
    by reflexivity.
  destruct (@get_model_error_provenance Symbolic.framework
              _ _ _ _ _ _ _ _ _ Hin E)
    as [[a [Ea _]] | [m [k [Em [_ Ei]]]]].
  - discriminate Ea.
  - cbn in Em. injection Em as Em. subst m. cbn [is_partial] in Ei.
    destruct Ei as [Ei | [x [Ex _]]].
    + exact Ei.
    + discriminate Ex.
Defined.

Lemma get_model_truth_test_raises_witness :
  @get_model Symbolic.framework "WideResnet_mini" 2 32 10 3
    (Some (Symbolic.Words [0; 7])) [] =
  (Err Symbolic.ambiguous, []).
Proof.
  apply (@get_model_truth_test_raises Symbolic.framework).
  - unfold _AVAILABLE_MODEL_NAMES. simpl. tauto.
  - reflexivity.
Defined.

Lemma get_model_legacy_uses_key_witness :
  @ndarray_bool Symbolic.framework (Symbolic.Words [7]) = Ok true /\
  @get_model Symbolic.framework "Pyramid_ShakeDrop" 2 32 10 3
    (Some (Symbolic.Words [7])) [] =
  (Err Symbolic.not_a_key, []).
Proof.
  split; [reflexivity |].
  exact (@get_model_legacy_uses_key Symbolic.framework
           "Pyramid_ShakeDrop" 2 32 10 3 (Symbolic.Words [7]) []
           (PyramidNetShakeDrop_partial 10 None)
           eq_refl eq_refl eq_refl).
Defined.

Lemma get_model_result_family_witness :
  exists model state w',
    @get_model Symbolic.framework "VisionTransformer_mini" 2 32 10 3 None [] =
    (Ok (model, state), w') /\
    select_module "VisionTransformer_mini" 10 = Ok (model_module model).
Proof.
  do 3 eexists.
  assert (E : @get_model Symbolic.framework "VisionTransformer_mini"
                2 32 10 3 None [] =
              (Ok (linen_Module
                     (VisionTransformer 10 768 (Transformer 2 3072 12)
                        (Patches (16, 16))),
                   Variables
                     (Symbolic.Init
                        (VisionTransformer 10 768 (Transformer 2 3072 12)
                           (Patches (16, 16)))
                        (Symbolic.Words [0; 0])
                        (Symbolic.Ones (2, 32, 32, 3)) false)),
               ["type(init_state): <class 'flax.core.frozen_dict.FrozenDict'>"]))
    by reflexivity.
  split; [exact E |].
  exact (proj1 (@get_model_result_family Symbolic.framework
                  _ _ _ _ _ _ _ _ _ _ E)).
Defined.

Lemma get_model_output_size_witness :
  let module := WideResnetShakeShake_partial 2 1 100 in
  let call :=
    Symbolic.InitByShape module (Symbolic.Words [0; 0])
      (Symbolic.Words [0; 0]) [((2, 32, 32, 3), float32)] in
  output_size (model_module (flax_nn_Model module call)) = 100.
Proof.
  intros module call.
  assert (E : @get_model Symbolic.framework "WideResnet_ShakeShake_mini"
                2 32 100 3 None [] =
              (Ok (flax_nn_Model module call, Collection call),
               ["type(init_state): <class 'flax.nn.base.Collection'>"]))
    by reflexivity.
  exact (@get_model_output_size Symbolic.framework _ _ _ _ _ _ _ _ _ _ E).
Defined.


(** *** Without determinism of the runtime

    On [self_seeding], whose [init_by_shape] samples with a key of its own,
    the same call has runs that return different parameters: the hypothesis
    of determinism is what two equal runs rest on. *)

Lemma self_seeding_run seed :
  let module := WideResnet_partial 2 1 10 in
  let call :=
    Symbolic.InitByShape module (Symbolic.Words [0; 0])
      (Symbolic.Words [0; seed]) [((2, 32, 32, 3), float32)] in
  get_model_runs self_seeding "WideResnet_mini" 2 32 10 3 None []
    (Ok (flax_nn_Model module call, Collection call),
     ["type(init_state): <class 'flax.nn.base.Collection'>"]).
Proof.
  intros module call.
  exists (Ok module, []). split; [reflexivity |].
  exists (Ok (Symbolic.Words [0; 0]), []). split.
  { exists (Ok true, []). split; [reflexivity |].
    exists (Ok (Symbolic.Words [0; 0])). split; reflexivity. }
  cbn.
  exists (Ok (Symbolic.Words [0; 0]), []). split.
  { exists (Ok (Symbolic.Words [0; 0])). split; reflexivity. }
  exists (Ok (call, call), []). split.
  { exists (Ok (call, call)). split; [exists seed; reflexivity | reflexivity]. }
  eexists. split; reflexivity.
Qed.

Lemma self_seeding_runs_differ :
  exists o1 o2,
    get_model_runs self_seeding "WideResnet_mini" 2 32 10 3 None [] o1 /\
    get_model_runs self_seeding "WideResnet_mini" 2 32 10 3 None [] o2 /\
    fst o1 <> fst o2.
Proof.
  eexists. eexists. split; [exact (self_seeding_run 0) |].
  split; [exact (self_seeding_run 1) |].
  simpl. discriminate.
Qed.
